(** * chatAssistant: the chat loop of [app/utils/chatbot.py]

    A shallow embedding of [get_context_retriever_chain], [get_response] and
    [chat].  The hosted model, the vector store and the UI toolkit are external
    collaborators: their answers are taken from an environment record, and every
    call the program makes to them is logged in a trace, so that statements
    about "what was invoked" and "what was rendered" can be read off the trace.
    Python lists that the caller shares with [chat] live in a store of list
    objects addressed by references. *)

From Stdlib Require Import Ascii String QArith.
From stdpp Require Import base gmap list strings pretty.

Open Scope string_scope.
Open Scope list_scope.

(** ** Python values and exceptions *)

(** Metadata values: a source is a string identifier, a page an integer.
    Both are hashable, so both can be keys of a dict. *)
Inductive PyVal :=
  | VStr (s : string)
  | VInt (n : Z).

#[global] Instance PyVal_eq_dec : EqDecision PyVal.
Proof. solve_decision. Defined.

(** [str(v)] *)
Definition py_str (v : PyVal) : string :=
  match v with
  | VStr s => s
  | VInt n => pretty n
  end.

(** [sep.join(parts)] *)
Fixpoint join (sep : string) (parts : list string) : string :=
  match parts with
  | [] => ""
  | [p] => p
  | p :: rest => p +:+ sep +:+ join sep rest
  end.

Inductive PyExn :=
  | KeyError (key : string)
  | ExternalError (name : string).

Inductive Outcome (A : Type) :=
  | Ok (a : A)
  | Raise (e : PyExn).
Arguments Ok {A} a.
Arguments Raise {A} e.

(** ** Messages and documents *)

(** [HumanMessage] and [AIMessage] are the two classes the program builds;
    a history handed in by the caller may hold any other message class of the
    toolkit, of which [SystemMessage] stands for the rest. *)
Inductive Message :=
  | HumanMessage (content : string)
  | AIMessage (content : string)
  | SystemMessage (content : string).

Definition content (m : Message) : string :=
  match m with
  | HumanMessage c | AIMessage c | SystemMessage c => c
  end.

(** [isinstance(message, AIMessage)] *)
Definition is_AIMessage (m : Message) : bool :=
  match m with
  | AIMessage _ => true
  | _ => false
  end.

Record Document := {
  page_content : string;
  metadata : gmap string PyVal
}.

(** The dict returned by the chain, at the two keys the program reads;
    [None] is an absent key. *)
Record Response := {
  answer : option string;
  context : option (list Document)
}.

(** ** The prompt template *)

Inductive MessageLike :=
  | RoleTemplate (role template : string)
  | MessagesPlaceholder (variable_name : string).

Definition system_template : string :=
"You are a multilingual chatbot powered by a Retrieval-Augmented Generation (RAG) system. Your task is to answer the user's question using ONLY the context provided from the vector database. Follow these rules:

1. **Language Detection**: Respond in the same language as the user's input. If the input is in Arabic, respond in Arabic. If the input is in English, respond in English.
2. **Contextual Answers**: Use ONLY the information from the provided context to answer the question. Do not rely on your own knowledge or invent answers.
3. **Unanswerable Questions**: If the context does not contain enough information to answer the question, politely ask the user for more details or clarification.
4. **Ambiguity**: If the question is ambiguous or unclear, ask the user to rephrase or provide more context.

Here is the context from the vector database:
{context}".

Definition prompt : list MessageLike :=
  [ RoleTemplate "system" system_template;
    MessagesPlaceholder "chat_history";
    RoleTemplate "human" "{input}" ].

(** [needle in haystack] *)
Fixpoint contains (needle haystack : string) : bool :=
  String.prefix needle haystack ||
  match haystack with
  | EmptyString => false
  | String _ rest => contains needle rest
  end.

(** ** The model configuration and the chain objects *)

Record ChatGoogleGenerativeAI := {
  model : string;
  temperature : Q;
  convert_system_message_to_human : bool
}.

Definition llm : ChatGoogleGenerativeAI :=
  {| model := "gemini-pro";
     temperature := (2 # 10)%Q;
     convert_system_message_to_human := true |}.

(** References to list objects. *)
Definition loc := positive.

(** [ui] containers a [st.write] can land in. *)
Inductive Container :=
  | Sidebar
  | ChatMessageBox (name : string).

Section Chatbot.

Context {VectorDB Retriever : Type}.

Record StuffDocumentsChain := {
  sd_llm : ChatGoogleGenerativeAI;
  sd_prompt : list MessageLike
}.

Record RetrievalChain := {
  rc_retriever : Retriever;
  rc_combine : StuffDocumentsChain
}.

Definition create_stuff_documents_chain
    (l : ChatGoogleGenerativeAI) (p : list MessageLike) : StuffDocumentsChain :=
  {| sd_llm := l; sd_prompt := p |}.

Definition create_retrieval_chain
    (r : Retriever) (c : StuffDocumentsChain) : RetrievalChain :=
  {| rc_retriever := r; rc_combine := c |}.

(** ** The outside world *)

(** What the collaborators answer during one interaction cycle. *)
Record Env := {
  st_chat_input : string -> option string;
  load_dotenv : Outcome bool;
  new_llm : ChatGoogleGenerativeAI -> Outcome ChatGoogleGenerativeAI;
  as_retriever : VectorDB -> Outcome Retriever;
  chain_invoke : RetrievalChain -> string -> list Message -> Outcome Response
}.

(** Calls that leave the program, in the order they are made. *)
Inductive Event :=
  | ChatInput (label : string)
  | Invoke (chain : RetrievalChain) (input : string) (chat_history : list Message)
  | Write (target : Container) (body : string).

Record State := {
  trace : list Event;
  heap : gmap loc (list Message)
}.

(** ** State and exception monad *)

Definition M (A : Type) : Type := State -> State * Outcome A.

Definition ret {A} (a : A) : M A := fun s => (s, Ok a).

Definition bind {A B} (m : M A) (k : A -> M B) : M B :=
  fun s =>
    match m s with
    | (s', Ok a) => k a s'
    | (s', Raise e) => (s', Raise e)
    end.

Notation "'do' x <- m ; k" := (bind m (fun x => k))
  (at level 10, x pattern, m at level 100, k at level 200).

Definition emit (e : Event) : M unit :=
  fun s => ({| trace := trace s ++ [e]; heap := heap s |}, Ok tt).

(** The result of a call to a collaborator. *)
Definition external {A} (o : Outcome A) : M A := fun s => (s, o).

(** Reading the list object behind a reference. *)
Definition deref (l : loc) : M (list Message) :=
  fun s => (s, Ok (heap s !!! l)).

(** A new list object. *)
Definition alloc (v : list Message) : M loc :=
  fun s =>
    let l := fresh (dom (heap s)) in
    ({| trace := trace s; heap := <[l := v]> (heap s) |}, Ok l).

(** [xs + ys] on lists: a new object, the operands are left as they are. *)
Definition list_add (xs : loc) (ys : list Message) : M loc :=
  do v <- deref xs;
  alloc (v ++ ys).

Fixpoint for_each {A} (xs : list A) (body : A -> M unit) : M unit :=
  match xs with
  | [] => ret tt
  | x :: rest => do _ <- body x; for_each rest body
  end.

(** [d[key]] on a dict *)
Definition getitem {V} (d : gmap string V) (key : string) : Outcome V :=
  match d !! key with
  | Some v => Ok v
  | None => Raise (KeyError key)
  end.

(** [response[key]] on the chain's result *)
Definition response_item {V} (field : option V) (key : string) : Outcome V :=
  match field with
  | Some v => Ok v
  | None => Raise (KeyError key)
  end.

Variable env : Env.

(** ** [get_context_retriever_chain] *)

Definition get_context_retriever_chain (vectordb : VectorDB) : M RetrievalChain :=
  do _ <- external (load_dotenv env);
  do l <- external (new_llm env llm);
  do retriever <- external (as_retriever env vectordb);
  let chain := create_stuff_documents_chain l prompt in
  let retrieval_chain := create_retrieval_chain retriever chain in
  ret retrieval_chain.

(** ** [get_response] *)

Definition get_response (question : string) (chat_history : loc) (vectordb : VectorDB)
    : M (string * list Document) :=
  do chain <- get_context_retriever_chain vectordb;
  do history <- deref chat_history;
  do _ <- emit (Invoke chain question history);
  do response <- external (chain_invoke env chain question history);
  do a <- external (response_item (answer response) "answer");
  do c <- external (response_item (context response) "context");
  ret (a, c).

(** ** [chat] *)

(** A [defaultdict(list)]: keys in insertion order, each with its list. *)
Definition defaultdict := list (PyVal * list PyVal).

(** [d[key]] on a [defaultdict(list)]: a missing key is entered, last, with
    an empty list. *)
Fixpoint dd_getitem (d : defaultdict) (key : PyVal) : defaultdict :=
  match d with
  | [] => [(key, [])]
  | (k, vs) :: rest =>
      if decide (k = key) then (k, vs) :: rest else (k, vs) :: dd_getitem rest key
  end.

(** [d[key].append(v)] once [key] is in [d]: the list is extended in place. *)
Fixpoint dd_append (d : defaultdict) (key v : PyVal) : defaultdict :=
  match d with
  | [] => []
  | (k, vs) :: rest =>
      if decide (k = key) then (k, vs ++ [v]) :: rest else (k, vs) :: dd_append rest key v
  end.

(** The body of the grouping loop:
    [metadata_dict[metadata['source']].append(metadata['page'])].
    The source is looked up first, then the dict entry, then the page. *)
Definition group_step (metadata_dict : defaultdict) (md : gmap string PyVal)
    : Outcome defaultdict :=
  match getitem md "source" with
  | Raise e => Raise e
  | Ok source =>
      let entered := dd_getitem metadata_dict source in
      match getitem md "page" with
      | Raise e => Raise e
      | Ok page => Ok (dd_append entered source page)
      end
  end.

Fixpoint group_loop (metadata_dict : defaultdict) (mds : list (gmap string PyVal))
    : Outcome defaultdict :=
  match mds with
  | [] => Ok metadata_dict
  | md :: rest =>
      match group_step metadata_dict md with
      | Raise e => Raise e
      | Ok d => group_loop d rest
      end
  end.

(** The citation grouping of [chat]: from the retrieved documents to the
    filled [metadata_dict]. *)
Definition group_citations (context : list Document) : Outcome defaultdict :=
  group_loop [] (map metadata context).

(** The two lines written to the side panel for one entry of the dict. *)
Definition citation_lines (entry : PyVal * list PyVal) : list Event :=
  let (source, pages) := entry in
  [ Write Sidebar ("Source: " +:+ py_str source);
    Write Sidebar ("Pages: " +:+ join ", " (map py_str pages)) ].

Definition write_citations (metadata_dict : defaultdict) : M unit :=
  for_each metadata_dict (fun entry =>
    let (source, pages) := entry in
    do _ <- emit (Write Sidebar ("Source: " +:+ py_str source));
    emit (Write Sidebar ("Pages: " +:+ join ", " (map py_str pages)))).

(** The label under which a message of the transcript is shown. *)
Definition label (message : Message) : string :=
  if is_AIMessage message then "AI" else "Human".

Definition chat (chat_history : loc) (vectordb : VectorDB) : M loc :=
  do _ <- emit (ChatInput "Ask a question:");
  let user_query := st_chat_input env "Ask a question:" in
  do chat_history <-
    match user_query with
    | Some user_query =>
        if negb (String.eqb user_query "") then
          do (response, context) <- get_response user_query chat_history vectordb;
          do chat_history <-
            list_add chat_history [HumanMessage user_query; AIMessage response];
          do metadata_dict <- external (group_citations context);
          do _ <- write_citations metadata_dict;
          ret chat_history
        else ret chat_history
    | None => ret chat_history
    end;
  do messages <- deref chat_history;
  do _ <- for_each messages (fun message =>
            emit (Write (ChatMessageBox (label message)) (content message)));
  ret chat_history.

End Chatbot.

Arguments Env : clear implicits.
Arguments State : clear implicits.
Arguments Event : clear implicits.
Arguments RetrievalChain : clear implicits.

(** ** Concrete collaborators, used to run the program on examples *)

Definition doc (source : string) (page : Z) : Document :=
  {| page_content := "";
     metadata := <["source" := VStr source]> (<["page" := VInt page]> ∅) |}.

(** A document whose metadata has no page. *)
Definition doc_without_page (source : string) : Document :=
  {| page_content := ""; metadata := <["source" := VStr source]> ∅ |}.

(** A pipeline that answers every question [q] with "re: q" and cites the
    given documents. *)
Definition echo_env (query : option string) (cited : list Document) : Env unit unit :=
  {| st_chat_input := fun _ => query;
     load_dotenv := Ok true;
     new_llm := Ok;
     as_retriever := Ok;
     chain_invoke := fun _ q _ =>
       Ok {| answer := Some ("re: " +:+ q); context := Some cited |} |}.

(** A pipeline whose invocation fails. *)
Definition failing_env (query : option string) (e : PyExn) : Env unit unit :=
  {| st_chat_input := fun _ => query;
     load_dotenv := Ok true;
     new_llm := Ok;
     as_retriever := Ok;
     chain_invoke := fun _ _ _ => Raise e |}.

(** Collaborators that follow a script: what the model client's constructor
    gives, and what every invocation of the pipeline gives. *)
Definition scripted_env (query : option string)
    (client : Outcome ChatGoogleGenerativeAI) (result : Outcome Response)
    : Env unit unit :=
  {| st_chat_input := fun _ => query;
     load_dotenv := Ok true;
     new_llm := fun _ => client;
     as_retriever := Ok;
     chain_invoke := fun _ _ _ => result |}.

Definition echo_chain : RetrievalChain unit :=
  create_retrieval_chain tt (create_stuff_documents_chain llm prompt).

Definition greeting : list Message := [HumanMessage "hi"; AIMessage "hello"].

(** A store with one list object, at reference 1. *)
Definition store_of (history : list Message) : State unit :=
  {| trace := []; heap := {[ 1%positive := history ]} |}.

(** ** Vocabulary of the specification *)

Definition doc_source (d : Document) : option PyVal := metadata d !! "source".
Definition doc_page (d : Document) : option PyVal := metadata d !! "page".

Definition has_citation_keys (d : Document) : Prop :=
  is_Some (doc_source d) /\ is_Some (doc_page d).

Definition lacks_citation_key (d : Document) : Prop :=
  doc_source d = None \/ doc_page d = None.

(** The sources of the retrieved documents, in retrieval order. *)
Definition sources (ctx : list Document) : list PyVal := omap doc_source ctx.

(** The pages of the documents of one source, in retrieval order. *)
Definition pages_of (src : PyVal) (ctx : list Document) : list PyVal :=
  omap doc_page (filter (fun d => doc_source d = Some src) ctx).

(** Every value once, at the place of its first occurrence. *)
Fixpoint first_occurrences (l : list PyVal) : list PyVal :=
  match l with
  | [] => []
  | x :: rest => x :: filter (fun y => y <> x) (first_occurrences rest)
  end.

(** Grouping as the specification words it. *)
Definition grouped (ctx : list Document) : defaultdict :=
  map (fun src => (src, pages_of src ctx)) (first_occurrences (sources ctx)).

(** Reading a [defaultdict] as a map. *)
Fixpoint dd_lookup (d : defaultdict) (key : PyVal) : option (list PyVal) :=
  match d with
  | [] => None
  | (k, vs) :: rest => if decide (k = key) then Some vs else dd_lookup rest key
  end.

(** The side-panel listing the specification describes. *)
Definition side_panel {Retriever} (ctx : list Document) : list (Event Retriever) :=
  flat_map (fun src =>
    [ Write Sidebar ("Source: " +:+ py_str src);
      Write Sidebar ("Pages: " +:+ join ", " (map py_str (pages_of src ctx))) ])
    (first_occurrences (sources ctx)).

(** One message of the transcript as it is rendered. *)
Definition render {Retriever} (m : Message) : Event Retriever :=
  Write (ChatMessageBox (label m)) (content m).

Definition is_Invoke {Retriever} (e : Event Retriever) : bool :=
  match e with
  | Invoke _ _ _ => true
  | _ => false
  end.

Definition is_transcript_write {Retriever} (e : Event Retriever) : bool :=
  match e with
  | Write (ChatMessageBox _) _ => true
  | _ => false
  end.

(** ASCII whitespace ([string.whitespace]): space, tab, line feed, vertical
    tab, form feed, carriage return. *)
Definition is_space (a : ascii) : bool :=
  let n := nat_of_ascii a in
  Nat.eqb n 32 || (Nat.leb 9 n && Nat.leb n 13).

Fixpoint whitespace_only (s : string) : bool :=
  match s with
  | EmptyString => true
  | String a rest => is_space a && whitespace_only rest
  end.

(** A cycle that leaves the pipeline alone: the reference handed in comes
    back, no list object has changed, and no invocation was logged. *)
Definition skips_pipeline {VectorDB Retriever} (env : Env VectorDB Retriever)
    (chat_history : loc) (vectordb : VectorDB) (s : State Retriever) : Prop :=
  let '(s', r) := chat env chat_history vectordb s in
  r = Ok chat_history /\ heap s' = heap s /\
  List.filter is_Invoke (trace s') = List.filter is_Invoke (trace s).

(** The outcome of building the chain does not depend on the state. *)
Definition chain_outcome {VectorDB Retriever} (env : Env VectorDB Retriever)
    (vectordb : VectorDB) : Outcome (RetrievalChain Retriever) :=
  snd (get_context_retriever_chain env vectordb {| trace := []; heap := ∅ |}).

(** What [get_response] makes of the chain's result. *)
Definition answer_and_context (r : Response) : Outcome (string * list Document) :=
  match answer r with
  | None => Raise (KeyError "answer")
  | Some a =>
      match context r with
      | None => Raise (KeyError "context")
      | Some c => Ok (a, c)
      end
  end.

(** The state after more events. *)
Definition logged {Retriever} (s : State Retriever) (es : list (Event Retriever))
    : State Retriever :=
  {| trace := trace s ++ es; heap := heap s |}.


(** A conversation made of exchanges: each human message is followed by its
    answer, and nothing else is in it. *)
Fixpoint well_paired (H : list Message) : bool :=
  match H with
  | [] => true
  | HumanMessage _ :: AIMessage _ :: rest => well_paired rest
  | _ => false
  end.

(** All the pages held by a dict, source after source. *)
Definition all_pages (d : defaultdict) : list PyVal := concat (map snd d).

(** * Properties *)

Section Properties.

Context {VectorDB Retriever : Type}.
Implicit Types (env : Env VectorDB Retriever) (s : State Retriever).
Implicit Types (vectordb : VectorDB) (chain : RetrievalChain Retriever).
Implicit Types (h : loc) (H : list Message) (ctx : list Document).

Lemma logged_nil s : logged s [] = s.
Proof. destruct s; unfold logged; simpl. by rewrite app_nil_r. Qed.

Lemma logged_logged s es1 es2 : logged (logged s es1) es2 = logged s (es1 ++ es2).
Proof. unfold logged; simpl. by rewrite app_assoc. Qed.

Lemma get_context_retriever_chain_run env vectordb s :
  get_context_retriever_chain env vectordb s = (s, chain_outcome env vectordb).
Proof.
  unfold chain_outcome, get_context_retriever_chain, bind, external, ret.
  destruct (load_dotenv env); [|done].
  destruct (new_llm env llm); [|done].
  by destruct (as_retriever env vectordb).
Qed.

Lemma for_each_emit {A} (f : A -> Event Retriever) (xs : list A) s :
  for_each xs (fun x => emit (f x)) s = (logged s (map f xs), Ok tt).
Proof.
  revert s. induction xs as [|x xs IH]; intros s; simpl.
  - by rewrite logged_nil.
  - unfold bind at 1. unfold emit at 1. rewrite IH.
    unfold logged; simpl. by rewrite <- app_assoc.
Qed.

Lemma write_citations_run (d : defaultdict) s :
  write_citations d s = (logged s (flat_map citation_lines d), Ok tt).
Proof.
  unfold write_citations. revert s.
  induction d as [|[src pages] d IH]; intros s; simpl.
  - by rewrite logged_nil.
  - unfold bind at 1. unfold bind at 1. unfold emit at 1 2. simpl.
    rewrite IH. unfold logged; simpl. by rewrite <- !app_assoc.
Qed.

Lemma get_response_run env question h vectordb s :
  get_response env question h vectordb s =
    match chain_outcome env vectordb with
    | Raise e => (s, Raise e)
    | Ok chain =>
        (logged s [Invoke chain question (heap s !!! h)],
         match chain_invoke env chain question (heap s !!! h) with
         | Raise e => Raise e
         | Ok r => answer_and_context r
         end)
    end.
Proof.
  unfold get_response, bind at 1. rewrite get_context_retriever_chain_run.
  destruct (chain_outcome env vectordb) as [chain|e]; [|done].
  unfold bind, deref, emit, external, ret, logged, answer_and_context; simpl.
  destruct (chain_invoke env chain question (heap s !!! h)) as [r|e]; [|done].
  destruct (answer r); simpl; [|done]. by destruct (context r).
Qed.

(** [chat] in closed form: the state and outcome of one cycle, step by step. *)
Lemma chat_run env h vectordb s :
  chat env h vectordb s =
    let H := heap s !!! h in
    let asked := logged s [ChatInput "Ask a question:"] in
    let idle := (logged asked (map render H), Ok h) in
    match st_chat_input env "Ask a question:" with
    | None => idle
    | Some Q =>
        if String.eqb Q "" then idle else
        match chain_outcome env vectordb with
        | Raise e => (asked, Raise e)
        | Ok chain =>
            let invoked := logged asked [Invoke chain Q H] in
            match chain_invoke env chain Q H with
            | Raise e => (invoked, Raise e)
            | Ok r =>
                match answer_and_context r with
                | Raise e => (invoked, Raise e)
                | Ok (a, ctx) =>
                    let H' := H ++ [HumanMessage Q; AIMessage a] in
                    let h' := fresh (dom (heap s)) in
                    let extended :=
                      {| trace := trace invoked; heap := <[h' := H']> (heap s) |} in
                    match group_citations ctx with
                    | Raise e => (extended, Raise e)
                    | Ok d =>
                        (logged extended (flat_map citation_lines d ++ map render H'),
                         Ok h')
                    end
                end
            end
        end
    end.
Proof.
  assert (forall s0 : State Retriever,
    bind (deref h) (fun messages =>
      bind (for_each messages (fun message =>
              emit (Write (ChatMessageBox (label message)) (content message))))
           (fun _ => ret h)) s0 = (logged s0 (map render (heap s0 !!! h)), Ok h))
    as Hreplay.
  { intros s0. unfold bind, deref, ret. by rewrite (for_each_emit render). }
  unfold chat, bind at 1. unfold emit at 1. fold (logged s [ChatInput "Ask a question:"]).
  destruct (st_chat_input env "Ask a question:") as [Q|]; cbn zeta.
  2:{ unfold bind at 1, ret at 1. by rewrite Hreplay. }
  destruct (String.eqb Q ""); cbn [negb].
  { unfold bind at 1, ret at 1. by rewrite Hreplay. }
  unfold bind at 1. unfold bind at 1. rewrite get_response_run.
  destruct (chain_outcome env vectordb) as [chain|e]; [|done].
  cbn [logged heap]. rewrite logged_logged.
  destruct (chain_invoke env chain Q (heap s !!! h)) as [r|e]; [|done].
  destruct (answer_and_context r) as [[a ctx]|e]; [|done].
  unfold bind at 1. unfold list_add, bind at 1, deref, alloc. cbn [logged heap trace].
  unfold bind at 1. unfold external at 1.
  destruct (group_citations ctx) as [d|e]; [|done].
  unfold bind at 1. rewrite write_citations_run. unfold ret at 1.
  unfold bind at 1. cbn [logged heap trace]. rewrite lookup_total_insert_eq.
  unfold bind at 1. rewrite (for_each_emit render). unfold ret, logged. cbn [heap trace].
  by rewrite <- !app_assoc.
Qed.

(** A cycle without a submitted question: the transcript is replayed and
    nothing else happens. *)
Lemma chat_idle_run env h vectordb s :
  st_chat_input env "Ask a question:" = None \/
  st_chat_input env "Ask a question:" = Some "" ->
  chat env h vectordb s =
    (logged s (ChatInput "Ask a question:" :: map render (heap s !!! h)), Ok h).
Proof.
  intros Hin. rewrite chat_run. cbn zeta.
  destruct Hin as [-> | ->]; cbn [String.eqb]; by rewrite logged_logged.
Qed.

(** A cycle with a question, when every step succeeds. *)
Lemma chat_query_run env h vectordb s Q chain r a ctx d :
  st_chat_input env "Ask a question:" = Some Q ->
  Q <> "" ->
  chain_outcome env vectordb = Ok chain ->
  chain_invoke env chain Q (heap s !!! h) = Ok r ->
  answer r = Some a ->
  context r = Some ctx ->
  group_citations ctx = Ok d ->
  let H' := (heap s !!! h) ++ [HumanMessage Q; AIMessage a] in
  let h' := fresh (dom (heap s)) in
  chat env h vectordb s =
    ({| trace := trace s ++ [ChatInput "Ask a question:"; Invoke chain Q (heap s !!! h)]
                   ++ flat_map citation_lines d ++ map render H';
        heap := <[h' := H']> (heap s) |}, Ok h').
Proof.
  intros Hin HQ Hchain Hinv Ha Hc Hd H' h'. rewrite chat_run. cbn zeta.
  apply String.eqb_neq in HQ. rewrite Hin, HQ, Hchain, Hinv.
  unfold answer_and_context. rewrite Ha, Hc, Hd.
  unfold logged. cbn [heap trace]. by rewrite <- !app_assoc.
Qed.

(** A cycle with a question that returns has gone through every step. *)
Lemma chat_query_inv env h vectordb s Q s' h' :
  st_chat_input env "Ask a question:" = Some Q ->
  Q <> "" ->
  chat env h vectordb s = (s', Ok h') ->
  exists chain r a ctx d,
    chain_outcome env vectordb = Ok chain /\
    chain_invoke env chain Q (heap s !!! h) = Ok r /\
    answer r = Some a /\
    context r = Some ctx /\
    group_citations ctx = Ok d.
Proof.
  intros Hin HQ. rewrite chat_run. cbn zeta.
  apply String.eqb_neq in HQ. rewrite Hin, HQ.
  destruct (chain_outcome env vectordb) as [chain|e]; [|by intros [=]].
  destruct (chain_invoke env chain Q (heap s !!! h)) as [r|e] eqn:Hinv; [|by intros [=]].
  unfold answer_and_context.
  destruct (answer r) as [a|] eqn:Ha; [|by intros [=]].
  destruct (context r) as [ctx|] eqn:Hc; [|by intros [=]].
  destruct (group_citations ctx) as [d|e] eqn:Hd; [|by intros [=]].
  intros _. by exists chain, r, a, ctx, d.
Qed.

Lemma render_label (m : Message) :
  render (Retriever := Retriever) m =
    Write (ChatMessageBox match m with AIMessage _ => "AI" | _ => "Human" end)
          (content m).
Proof. by destruct m. Qed.

Lemma citation_lines_not_transcript (d : defaultdict) :
  forallb (fun e : Event Retriever => negb (is_transcript_write e))
          (flat_map citation_lines d) = true.
Proof. induction d as [|[src pages] d IH]; [done|]. by cbn. Qed.

(** A new list object leaves the ones that are there as they are. *)
Lemma heap_alloc_preserves (m : gmap loc (list Message)) l (L X : list Message) :
  m !! l = Some L -> <[fresh (dom m) := X]> m !! l = Some L.
Proof.
  intros Hl. rewrite lookup_insert_ne; [done|]. intros <-.
  apply (is_fresh (dom m)). apply elem_of_dom. by exists L.
Qed.

Lemma heap_fresh_unused (m : gmap loc (list Message)) : m !! fresh (dom m) = None.
Proof. apply not_elem_of_dom. apply is_fresh. Qed.

End Properties.

(** ** The citation grouping *)

Section Grouping.

Implicit Types (d : defaultdict) (ctx : list Document) (src page : PyVal).

Lemma elem_of_first_occurrences (l : list PyVal) x :
  x ∈ first_occurrences l <-> x ∈ l.
Proof.
  induction l as [|y l IH]; simpl; [done|].
  rewrite !elem_of_cons, list_elem_of_filter, IH.
  destruct (decide (x = y)) as [->|Hne]; [tauto|]. tauto.
Qed.

Lemma NoDup_first_occurrences (l : list PyVal) : NoDup (first_occurrences l).
Proof.
  induction l as [|y l IH]; simpl; [constructor|].
  apply NoDup_cons. split.
  - rewrite list_elem_of_filter. by intros [Hne _].
  - by apply NoDup_filter.
Qed.

Lemma first_occurrences_snoc (l : list PyVal) x :
  first_occurrences (l ++ [x]) =
    if decide (x ∈ l) then first_occurrences l else first_occurrences l ++ [x].
Proof.
  induction l as [|y l IH]; cbn [first_occurrences app].
  - rewrite decide_False; [done | by apply not_elem_of_nil].
  - rewrite IH. destruct (decide (x ∈ l)) as [Hin|Hnin].
    + rewrite decide_True; [done | by right].
    + rewrite filter_app. destruct (decide (x = y)) as [->|Hne].
      * rewrite decide_True; [|by left].
        rewrite (filter_cons_False _ y) by (by intros Hy).
        by rewrite filter_nil, app_nil_r.
      * rewrite decide_False by (rewrite elem_of_cons; tauto).
        by rewrite filter_cons_True.
Qed.

Lemma sources_snoc ctx x src :
  doc_source x = Some src -> sources (ctx ++ [x]) = sources ctx ++ [src].
Proof. intros Hs. unfold sources. rewrite omap_app. simpl. by rewrite Hs. Qed.

Lemma pages_of_snoc ctx x src page key :
  doc_source x = Some src -> doc_page x = Some page ->
  pages_of key (ctx ++ [x]) =
    if decide (key = src) then pages_of key ctx ++ [page] else pages_of key ctx.
Proof.
  intros Hs Hp. unfold pages_of. rewrite filter_app, omap_app.
  destruct (decide (key = src)) as [->|Hne].
  - rewrite (filter_cons_True _ x) by done. simpl. by rewrite Hp.
  - rewrite (filter_cons_False _ x) by congruence.
    by rewrite filter_nil, app_nil_r.
Qed.

Lemma pages_of_absent ctx src : src ∉ sources ctx -> pages_of src ctx = [].
Proof.
  intros Hnin. unfold pages_of.
  replace (filter (fun y => doc_source y = Some src) ctx) with (@nil Document); [done|].
  symmetry. induction ctx as [|x ctx IH]; [done|].
  assert (doc_source x <> Some src) as Hx.
  { intros Hx. apply Hnin. unfold sources. simpl. rewrite Hx. by left. }
  rewrite filter_cons_False by done. apply IH.
  intros Hin. apply Hnin. unfold sources in *. simpl.
  destruct (doc_source x); [by right | done].
Qed.

(** Entering a page under its source, on a dict given by its keys and a
    function to their lists. *)
Lemma entry_append (f : PyVal -> list PyVal) (ks : list PyVal) src page :
  NoDup ks ->
  dd_append (dd_getitem (map (fun k => (k, f k)) ks) src) src page =
    if decide (src ∈ ks)
    then map (fun k => (k, if decide (k = src) then f k ++ [page] else f k)) ks
    else map (fun k => (k, f k)) ks ++ [(src, [page])].
Proof.
  induction ks as [|k ks IH]; intros Hnd; cbn [map dd_getitem dd_append app].
  - rewrite decide_True by done. rewrite decide_False; [done | by apply not_elem_of_nil].
  - apply NoDup_cons in Hnd as [Hk Hnd]. destruct (decide (k = src)) as [->|Hne];
      cbn [dd_append].
    + rewrite !decide_True by (done || by left). f_equal.
      apply map_ext_in. intros a Ha. apply list_elem_of_In in Ha.
      rewrite decide_False; [done | by intros ->].
    + rewrite !(decide_False (P := k = src)) by done. rewrite IH by done.
      destruct (decide (src ∈ ks)) as [Hin|Hnin].
      * rewrite decide_True; [done | by right].
      * rewrite decide_False; [done | rewrite elem_of_cons; intros [?|?]; congruence].
Qed.

Lemma group_loop_app d (l1 l2 : list (gmap string PyVal)) :
  group_loop d (l1 ++ l2) =
    match group_loop d l1 with
    | Ok d1 => group_loop d1 l2
    | Raise e => Raise e
    end.
Proof.
  revert d. induction l1 as [|md l1 IH]; intros d; simpl; [done|].
  by destruct (group_step d md).
Qed.

(** One more document with both keys extends the grouping of the documents
    before it. *)
Lemma group_step_grouped ctx x :
  has_citation_keys x ->
  group_step (grouped ctx) (metadata x) = Ok (grouped (ctx ++ [x])).
Proof.
  intros [[src Hs] [page Hp]]. unfold group_step, getitem.
  unfold doc_source in Hs. unfold doc_page in Hp. rewrite Hs, Hp. f_equal.
  unfold grouped. rewrite entry_append by apply NoDup_first_occurrences.
  rewrite (sources_snoc _ _ src) by done. rewrite first_occurrences_snoc.
  destruct (decide (src ∈ sources ctx)) as [Hin|Hnin].
  - rewrite decide_True by by apply elem_of_first_occurrences.
    apply map_ext. intros k. f_equal.
    rewrite (pages_of_snoc _ _ src page) by done. done.
  - rewrite decide_False by by rewrite elem_of_first_occurrences.
    rewrite map_app. simpl. f_equal.
    + apply map_ext_in. intros k Hk. f_equal.
      rewrite (pages_of_snoc _ _ src page) by done.
      rewrite decide_False; [done|]. intros ->.
      apply Hnin. apply elem_of_first_occurrences. by apply list_elem_of_In.
    + rewrite (pages_of_snoc _ _ src page) by done.
      rewrite decide_True by done. by rewrite pages_of_absent.
Qed.

Lemma group_citations_grouped ctx :
  Forall has_citation_keys ctx -> group_citations ctx = Ok (grouped ctx).
Proof.
  induction ctx as [|x ctx IH] using rev_ind; intros Hall; [done|].
  apply Forall_app in Hall as [Hctx Hx]. rewrite Forall_singleton in Hx.
  unfold group_citations in *. rewrite map_app, group_loop_app, IH by done.
  cbn [map group_loop]. by rewrite group_step_grouped.
Qed.

Lemma group_step_raises d (md : gmap string PyVal) :
  md !! "source" = None \/ md !! "page" = None ->
  exists key, group_step d md = Raise (KeyError key) /\ (key = "source" \/ key = "page").
Proof.
  intros Hlack. unfold group_step, getitem.
  destruct (md !! "source") as [src|]; [|by exists "source"; auto].
  destruct Hlack as [?| ->]; [done|]. exists "page"; auto.
Qed.

Lemma group_loop_raises d ctx :
  Exists lacks_citation_key ctx ->
  exists key, group_loop d (map metadata ctx) = Raise (KeyError key) /\
              (key = "source" \/ key = "page").
Proof.
  revert d. induction ctx as [|x ctx IH]; intros d Hex; [by apply Exists_nil in Hex|].
  simpl. destruct (group_step d (metadata x)) as [d1|e] eqn:Hstep.
  - apply IH. apply Exists_cons in Hex as [Hx|Hex]; [|done].
    destruct (group_step_raises d (metadata x) Hx) as (key & Hk & _). congruence.
  - apply Exists_cons in Hex as [Hx|Hex].
    + destruct (group_step_raises d (metadata x) Hx) as (key & Hk & Hkey).
      exists key. split; [congruence | done].
    + unfold group_step, getitem in Hstep.
      destruct (metadata x !! "source"); [|inversion Hstep; exists "source"; auto].
      destruct (metadata x !! "page"); [done|]. inversion Hstep. exists "page"; auto.
Qed.

Lemma dd_lookup_map (f : PyVal -> list PyVal) (ks : list PyVal) src :
  dd_lookup (map (fun k => (k, f k)) ks) src =
    if decide (src ∈ ks) then Some (f src) else None.
Proof.
  induction ks as [|k ks IH]; cbn [map dd_lookup].
  - rewrite decide_False; [done | by apply not_elem_of_nil].
  - destruct (decide (k = src)) as [->|Hne].
    + rewrite decide_True; [done | by left].
    + rewrite IH. destruct (decide (src ∈ ks)).
      * rewrite decide_True; [done | by right].
      * rewrite decide_False; [done | rewrite elem_of_cons; intros [?|?]; congruence].
Qed.

Lemma pages_of_length ctx src :
  Forall has_citation_keys ctx ->
  length (pages_of src ctx) =
    length (filter (fun x => doc_source x = Some src) ctx).
Proof.
  intros Hkeys. unfold pages_of.
  induction ctx as [|x ctx IH]; [done|].
  apply Forall_cons in Hkeys as [[_ [page Hp]] Hkeys].
  destruct (decide (doc_source x = Some src)) as [Hx|Hx].
  - rewrite filter_cons_True by done. cbn [omap list_omap]. rewrite Hp. cbn.
    f_equal. by apply IH.
  - rewrite filter_cons_False by done. by apply IH.
Qed.

Lemma citation_lines_grouped {Retriever} ctx :
  flat_map (citation_lines (Retriever := Retriever)) (grouped ctx) = side_panel ctx.
Proof.
  unfold grouped, side_panel.
  induction (first_occurrences (sources ctx)) as [|k ks IH]; [done|].
  simpl. by rewrite IH.
Qed.

End Grouping.

(** * Properties of the chat loop *)

(** A cycle cut short: its state is the one reached, with no transcript
    write in what was logged. *)
Ltac aborted_cycle :=
  intros [= <- _]; unfold logged; cbn [trace heap];
  rewrite ?List.filter_app; cbn [List.filter is_transcript_write];
  by rewrite ?app_nil_r.

Section Claims.

Context {VectorDB Retriever : Type}.
Implicit Types (env : Env VectorDB Retriever) (s : State Retriever).
Implicit Types (vectordb : VectorDB) (chain : RetrievalChain Retriever).
Implicit Types (h : loc) (H : list Message) (ctx : list Document).

(** C1: for a history [H] and a non-empty input [Q], a cycle of [chat] that
    completes returns a history equal to [H] followed by one human message
    with content [Q] and then one assistant message with the pipeline's
    answer; nothing of [H] is removed, changed or reordered.  A cycle
    completes whenever the pipeline answers and every cited document carries
    its source and page. *)
Theorem chat_appends_exchange env h vectordb s H Q :
  heap s !! h = Some H ->
  st_chat_input env "Ask a question:" = Some Q ->
  Q <> "" ->
  (forall s' h',
     chat env h vectordb s = (s', Ok h') ->
     exists chain r a,
       chain_outcome env vectordb = Ok chain /\
       chain_invoke env chain Q H = Ok r /\
       answer r = Some a /\
       heap s' !! h' = Some (H ++ [HumanMessage Q; AIMessage a]))
  /\
  (forall chain r a ctx,
     chain_outcome env vectordb = Ok chain ->
     chain_invoke env chain Q H = Ok r ->
     answer r = Some a ->
     context r = Some ctx ->
     Forall has_citation_keys ctx ->
     exists s' h',
       chat env h vectordb s = (s', Ok h') /\
       heap s' !! h' = Some (H ++ [HumanMessage Q; AIMessage a])).
Proof.
  intros HH Hin HQ. pose proof (lookup_total_correct _ _ _ HH) as Htot. split.
  - intros s' h' Hrun.
    destruct (chat_query_inv _ _ _ _ _ _ _ Hin HQ Hrun)
      as (chain & r & a & ctx & d & Hchain & Hinv & Ha & Hc & Hd).
    rewrite (chat_query_run _ _ _ _ _ _ _ _ _ _ Hin HQ Hchain Hinv Ha Hc Hd) in Hrun.
    injection Hrun as <- <-. rewrite Htot in Hinv.
    exists chain, r, a. repeat split; try done.
    cbn [heap]. by rewrite lookup_insert_eq, Htot.
  - intros chain r a ctx Hchain Hinv Ha Hc Hkeys. rewrite <- Htot in Hinv.
    pose proof (group_citations_grouped _ Hkeys) as Hd.
    rewrite (chat_query_run _ _ _ _ _ _ _ _ _ _ Hin HQ Hchain Hinv Ha Hc Hd).
    eexists _, _. split; [done|].
    cbn [heap]. by rewrite lookup_insert_eq, Htot.
Qed.

(** C2: the citation grouping groups the retrieved documents by their
    [source] and lists under each source the [page] of every document of that
    source, in retrieval order; the documents with (source, page)
    ("a",1), ("b",2), ("a",3) are grouped into {"a": [1, 3], "b": [2]}. *)
Theorem group_citations_by_source :
  (forall ctx,
     Forall has_citation_keys ctx ->
     group_citations ctx = Ok (grouped ctx) /\
     forall src,
       dd_lookup (grouped ctx) src =
         if decide (src ∈ sources ctx) then Some (pages_of src ctx) else None)
  /\
  group_citations [doc "a" 1; doc "b" 2; doc "a" 3] =
    Ok [(VStr "a", [VInt 1; VInt 3]); (VStr "b", [VInt 2])].
Proof.
  split; [|reflexivity].
  intros ctx Hkeys. split; [by apply group_citations_grouped|].
  intros src. unfold grouped. rewrite dd_lookup_map.
  destruct (decide (src ∈ sources ctx)) as [Hin|Hnin].
  - rewrite decide_True; [done | by apply elem_of_first_occurrences].
  - rewrite decide_False; [done | by rewrite elem_of_first_occurrences].
Qed.

(** C3, as amended: when no input was submitted in the cycle, or the input
    is the empty string, [chat] does not invoke the pipeline and returns the
    history it was given, unchanged. *)
Theorem chat_without_question_skips_pipeline env h vectordb s :
  st_chat_input env "Ask a question:" = None \/
  st_chat_input env "Ask a question:" = Some "" ->
  skips_pipeline env h vectordb s.
Proof.
  intros Hin. unfold skips_pipeline. rewrite (chat_idle_run _ _ _ _ Hin).
  repeat split. unfold logged. cbn [trace].
  rewrite List.filter_app. cbn [List.filter is_Invoke].
  replace (List.filter is_Invoke (map render (heap s !!! h)))
    with (@nil (Event Retriever)); [by rewrite app_nil_r|].
  induction (heap s !!! h) as [|m H IH]; [done|]. by cbn.
Qed.

(** C4: the prompt of the chain built by [get_context_retriever_chain] has a
    system message with a [{context}] slot, then a messages placeholder for
    [chat_history], then a human message that is the [{input}] slot. *)
Theorem prompt_has_placeholders env vectordb s s' chain :
  get_context_retriever_chain env vectordb s = (s', Ok chain) ->
  exists system,
    sd_prompt (rc_combine chain) =
      [ RoleTemplate "system" system;
        MessagesPlaceholder "chat_history";
        RoleTemplate "human" "{input}" ] /\
    contains "{context}" system = true.
Proof.
  unfold get_context_retriever_chain, bind, external, ret.
  destruct (load_dotenv env); [|by intros [=]].
  destruct (new_llm env llm); [|by intros [=]].
  destruct (as_retriever env vectordb); [|by intros [=]].
  intros [= _ <-]. exists system_template. split; [done|]. by vm_compute.
Qed.

(** C5: when the invocation of the pipeline inside [get_response] raises an
    exception, [get_response] raises that same exception: the pipeline was
    invoked once, nothing was caught and no result was made up. *)
Theorem get_response_propagates env question h vectordb s H chain e :
  heap s !! h = Some H ->
  chain_outcome env vectordb = Ok chain ->
  chain_invoke env chain question H = Raise e ->
  get_response env question h vectordb s =
    (logged s [Invoke chain question H], Raise e).
Proof.
  intros HH Hchain Hinv. rewrite get_response_run, Hchain.
  rewrite (lookup_total_correct _ _ _ HH). by rewrite Hinv.
Qed.

(** C6: the citation grouping raises a lookup failure on every list of
    documents of which one has no [source] or no [page] in its metadata, and
    raises nothing when every document has both. *)
Theorem group_citations_key_errors ctx :
  (Exists lacks_citation_key ctx ->
   exists key, group_citations ctx = Raise (KeyError key) /\
               (key = "source" \/ key = "page"))
  /\
  (Forall has_citation_keys ctx -> exists d, group_citations ctx = Ok d).
Proof.
  split.
  - apply group_loop_raises.
  - intros Hkeys. exists (grouped ctx). by apply group_citations_grouped.
Qed.

(** C7: [get_response] invokes the pipeline with the question and the whole
    chat history as it stands, whatever its length; nothing is cut off. *)
Theorem get_response_passes_whole_history env question h vectordb s H chain :
  heap s !! h = Some H ->
  chain_outcome env vectordb = Ok chain ->
  get_response env question h vectordb s =
    (logged s [Invoke chain question H],
     match chain_invoke env chain question H with
     | Ok r => answer_and_context r
     | Raise e => Raise e
     end).
Proof.
  intros HH Hchain. rewrite get_response_run, Hchain.
  by rewrite (lookup_total_correct _ _ _ HH).
Qed.

(** C8: a cycle of [chat] that completes ends by rendering every message of
    the history it returns, in order, each labelled "AI" when it is an
    assistant message and "Human" otherwise; nothing before that replay is
    written to the transcript.  Only a cycle with a question can fail to
    complete (a step of it raised), and such a cycle writes nothing to the
    transcript. *)
Theorem chat_replays_transcript env h vectordb s :
  (forall s' h',
     chat env h vectordb s = (s', Ok h') ->
     exists before,
       trace s' = trace s ++ before ++
         map (fun m =>
                Write (ChatMessageBox match m with AIMessage _ => "AI" | _ => "Human" end)
                      (content m))
             (heap s' !!! h') /\
       forallb (fun e => negb (is_transcript_write e)) before = true)
  /\
  (forall s' e,
     chat env h vectordb s = (s', Raise e) ->
     (exists Q, st_chat_input env "Ask a question:" = Some Q /\ Q <> "") /\
     List.filter is_transcript_write (trace s') =
       List.filter is_transcript_write (trace s)).
Proof.
  assert (forall H, map (render (Retriever := Retriever)) H =
    map (fun m =>
           Write (ChatMessageBox match m with AIMessage _ => "AI" | _ => "Human" end)
                 (content m)) H) as Hmap.
  { intros H. apply map_ext. apply render_label. }
  split.
  - intros s' h' Hrun.
    destruct (st_chat_input env "Ask a question:") as [Q|] eqn:Hin.
    + destruct (decide (Q = "")) as [->|HQ].
      * rewrite chat_idle_run in Hrun by auto. injection Hrun as <- <-.
        exists [ChatInput "Ask a question:"]. split; [|done].
        unfold logged. cbn [trace heap]. by rewrite Hmap.
      * destruct (chat_query_inv _ _ _ _ _ _ _ Hin HQ Hrun)
          as (chain & r & a & ctx & d & Hchain & Hinv & Ha & Hc & Hd).
        rewrite (chat_query_run _ _ _ _ _ _ _ _ _ _ Hin HQ Hchain Hinv Ha Hc Hd) in Hrun.
        injection Hrun as <- <-. cbn [trace heap]. rewrite lookup_total_insert_eq.
        exists ([ChatInput "Ask a question:"; Invoke chain Q (heap s !!! h)]
                ++ flat_map citation_lines d).
        split; [by rewrite Hmap, <- !app_assoc|].
        rewrite forallb_app. cbn [forallb is_transcript_write negb andb].
        apply citation_lines_not_transcript.
    + rewrite chat_idle_run in Hrun by auto. injection Hrun as <- <-.
      exists [ChatInput "Ask a question:"]. split; [|done].
      unfold logged. cbn [trace heap]. by rewrite Hmap.
  - intros s' e. rewrite chat_run. cbn zeta.
    destruct (st_chat_input env "Ask a question:") as [Q|]; [|by intros [=]].
    destruct (String.eqb Q "") eqn:HQ; [by intros [=]|]. apply String.eqb_neq in HQ.
    intros Hrun. split; [by exists Q|]. revert Hrun.
    destruct (chain_outcome env vectordb) as [chain|e1]; [|aborted_cycle].
    destruct (chain_invoke env chain Q (heap s !!! h)) as [r|e1]; [|aborted_cycle].
    destruct (answer_and_context r) as [[a ctx]|e1]; [|aborted_cycle].
    destruct (group_citations ctx) as [d|e1]; [by intros [=] | aborted_cycle].
Qed.

(** C9: [chat] changes no list object that exists when it is called, the
    caller's history among them, whatever the outcome of the cycle; on a
    non-empty input the history it returns is a new list object, holding the
    old history followed by the two new messages. *)
Theorem chat_leaves_lists_alone env h vectordb s s' r :
  chat env h vectordb s = (s', r) ->
  (forall l L, heap s !! l = Some L -> heap s' !! l = Some L)
  /\
  (forall Q h',
     st_chat_input env "Ask a question:" = Some Q -> Q <> "" -> r = Ok h' ->
     heap s !! h' = None /\
     exists a, heap s' !! h' = Some ((heap s !!! h) ++ [HumanMessage Q; AIMessage a])).
Proof.
  rewrite chat_run. cbn zeta. intros Hrun.
  destruct (st_chat_input env "Ask a question:") as [Q|].
  2:{ injection Hrun as <- <-. split; [done|]. by intros Q h' [=]. }
  destruct (String.eqb Q "") eqn:HQ.
  { injection Hrun as <- <-. split; [done|].
    intros Q' h' [= <-] HQ'. by apply String.eqb_neq in HQ'; congruence. }
  destruct (chain_outcome env vectordb) as [chain|e].
  2:{ injection Hrun as <- <-. split; [done|]. by intros Q' h' _ _ [=]. }
  destruct (chain_invoke env chain Q (heap s !!! h)) as [resp|e].
  2:{ injection Hrun as <- <-. split; [done|]. by intros Q' h' _ _ [=]. }
  destruct (answer_and_context resp) as [[a ctx]|e].
  2:{ injection Hrun as <- <-. split; [done|]. by intros Q' h' _ _ [=]. }
  destruct (group_citations ctx) as [d|e]; injection Hrun as <- <-; cbn [heap logged].
  - split; [intros l L; apply heap_alloc_preserves|].
    intros Q' h' [= <-] _ [= <-]. split; [apply heap_fresh_unused|].
    exists a. by rewrite lookup_insert_eq.
  - split; [intros l L; apply heap_alloc_preserves|]. by intros Q' h' _ _ [=].
Qed.

(** C10: the side panel lists the sources in the order in which they first
    occur among the retrieved documents, each followed by the pages of its
    documents in retrieval order, one page per document: a page that occurs
    twice under a source is listed twice. *)
Theorem side_panel_in_first_occurrence_order env h vectordb s H Q chain r a ctx :
  heap s !! h = Some H ->
  st_chat_input env "Ask a question:" = Some Q ->
  Q <> "" ->
  chain_outcome env vectordb = Ok chain ->
  chain_invoke env chain Q H = Ok r ->
  answer r = Some a ->
  context r = Some ctx ->
  Forall has_citation_keys ctx ->
  (exists s' h',
     chat env h vectordb s = (s', Ok h') /\
     trace s' = trace s ++ [ChatInput "Ask a question:"; Invoke chain Q H]
                  ++ side_panel ctx
                  ++ map render (H ++ [HumanMessage Q; AIMessage a]))
  /\
  (forall src,
     length (pages_of src ctx) =
       length (filter (fun x => doc_source x = Some src) ctx)).
Proof.
  intros HH Hin HQ Hchain Hinv Ha Hc Hkeys.
  pose proof (lookup_total_correct _ _ _ HH) as Htot. rewrite <- Htot in Hinv.
  pose proof (group_citations_grouped _ Hkeys) as Hd.
  split; [|intros src; by apply pages_of_length].
  rewrite (chat_query_run _ _ _ _ _ _ _ _ _ _ Hin HQ Hchain Hinv Ha Hc Hd).
  eexists _, _. split; [done|]. cbn [trace].
  by rewrite citation_lines_grouped, Htot.
Qed.

End Claims.

(** * Further properties of the grouping *)

Section GroupingInvariants.

Implicit Types (d : defaultdict) (ctx : list Document) (key page : PyVal).

(** Entering a page under a key: the keys. *)
Lemma entered_keys d key page :
  map fst (dd_append (dd_getitem d key) key page) =
    map fst d ++ (if decide (key ∈ map fst d) then [] else [key]).
Proof.
  induction d as [|[k vs] d IH]; cbn [dd_getitem dd_append map fst app].
  - rewrite decide_True by done. rewrite decide_False; [done | by apply not_elem_of_nil].
  - destruct (decide (k = key)) as [->|Hne]; cbn [dd_append map fst].
    + rewrite !decide_True by (done || by left). by rewrite app_nil_r.
    + rewrite !(decide_False (P := k = key)) by done. cbn [map fst]. rewrite IH.
      destruct (decide (key ∈ map fst d)) as [Hin|Hnin].
      * rewrite decide_True; [done | by right].
      * rewrite decide_False; [done | rewrite elem_of_cons; intros [?|?]; congruence].
Qed.

(** Entering a page under a key: one page more, whatever the key. *)
Lemma entered_pages d key page :
  length (all_pages (dd_append (dd_getitem d key) key page)) = S (length (all_pages d)).
Proof.
  unfold all_pages.
  induction d as [|[k vs] d IH]; cbn [dd_getitem dd_append map snd concat].
  { by rewrite decide_True. }
  destruct (decide (k = key)) as [->|Hne]; cbn [dd_append map snd concat].
  - rewrite decide_True by done. cbn [map snd concat].
    rewrite !length_app. cbn [length]. lia.
  - rewrite decide_False by done. cbn [map snd concat].
    rewrite !length_app, IH. lia.
Qed.

(** Entering a page under a key leaves no key without a page. *)
Lemma entered_nonempty d key page :
  Forall (fun entry => snd entry <> []) d ->
  Forall (fun entry => snd entry <> []) (dd_append (dd_getitem d key) key page).
Proof.
  induction d as [|[k vs] d IH]; intros Hd; cbn [dd_getitem dd_append].
  - rewrite decide_True by done. by repeat constructor.
  - apply Forall_cons in Hd as [Hvs Hd].
    destruct (decide (k = key)) as [->|Hne]; cbn [dd_append].
    + rewrite decide_True by done. constructor; [|done].
      cbn. intros Hnil. by apply app_eq_nil in Hnil as [_ [=]].
    + rewrite decide_False by done. constructor; [done | by apply IH].
Qed.

Lemma group_step_entered d (md : gmap string PyVal) d' :
  group_step d md = Ok d' ->
  exists key page, d' = dd_append (dd_getitem d key) key page.
Proof.
  unfold group_step.
  destruct (getitem md "source") as [key|]; [|by intros [=]].
  destruct (getitem md "page") as [page|]; [|by intros [=]].
  intros [= <-]. by exists key, page.
Qed.

(** What the grouping loop keeps true of its dict, from any dict it starts
    with. *)
Lemma group_loop_invariants d (mds : list (gmap string PyVal)) d' :
  group_loop d mds = Ok d' ->
  NoDup (map fst d) ->
  Forall (fun entry => snd entry <> []) d ->
  NoDup (map fst d') /\
  Forall (fun entry => snd entry <> []) d' /\
  length (all_pages d') = length (all_pages d) + length mds.
Proof.
  revert d. induction mds as [|md mds IH]; intros d Hrun Hnd Hne; cbn [group_loop] in Hrun.
  - injection Hrun as <-. cbn [length]. repeat split; [done | done | lia].
  - destruct (group_step d md) as [d1|e] eqn:Hstep; [|done].
    destruct (group_step_entered _ _ _ Hstep) as (key & page & ->).
    destruct (IH _ Hrun) as (Hnd' & Hne' & Hlen).
    + rewrite entered_keys. destruct (decide (key ∈ map fst d)) as [Hin|Hnin].
      * by rewrite app_nil_r.
      * apply NoDup_app. repeat split; [done | | apply NoDup_singleton].
        intros x Hx ->%list_elem_of_singleton. done.
    + by apply entered_nonempty.
    + repeat split; [done | done |]. rewrite Hlen, entered_pages. cbn [length]. lia.
Qed.

(** X8: when the grouping meets its first document without a [source] or a
    [page], it raises a lookup failure for that document's first missing key,
    [source] before [page]; the documents after it play no part. *)
Theorem group_citations_first_missing_key (good : list Document) (bad : Document)
    (rest : list Document) :
  Forall has_citation_keys good ->
  lacks_citation_key bad ->
  group_citations (good ++ bad :: rest) =
    Raise (KeyError match doc_source bad with Some _ => "page" | None => "source" end).
Proof.
  intros Hgood Hbad. unfold group_citations.
  rewrite map_app, group_loop_app. fold (group_citations good).
  rewrite (group_citations_grouped _ Hgood). cbn [map group_loop].
  unfold group_step, getitem. unfold lacks_citation_key, doc_source, doc_page in *.
  destruct (metadata bad !! "source") as [src|]; [|done].
  destruct Hbad as [?|Hpage]; [done|]. by rewrite Hpage.
Qed.


(** X10: the dict the grouping returns holds one page per retrieved document:
    no document is left out and none is counted twice. *)
Theorem group_citations_one_page_per_document ctx d :
  group_citations ctx = Ok d ->
  length (all_pages d) = length ctx.
Proof.
  intros Hrun.
  destruct (group_loop_invariants [] (map metadata ctx) d Hrun) as (_ & _ & Hlen);
    [constructor | constructor |].
  rewrite Hlen. cbn. by rewrite length_map.
Qed.

End GroupingInvariants.

(** * Further properties of [get_response] and [chat] *)

Section Cycles.

Context {VectorDB Retriever : Type}.
Implicit Types (env : Env VectorDB Retriever) (s : State Retriever).
Implicit Types (vectordb : VectorDB) (chain : RetrievalChain Retriever).
Implicit Types (h : loc) (H : list Message) (ctx : list Document).

Lemma citation_lines_not_Invoke (d : defaultdict) :
  List.filter is_Invoke (flat_map (citation_lines (Retriever := Retriever)) d) = [].
Proof. induction d as [|[src pages] d IH]; [done|]. by cbn. Qed.

Lemma render_not_Invoke H :
  List.filter is_Invoke (map (render (Retriever := Retriever)) H) = [].
Proof. induction H as [|m H IH]; [done|]. by cbn. Qed.

Lemma well_paired_app H T :
  well_paired H = true -> well_paired (H ++ T) = well_paired T.
Proof.
  enough ((well_paired H = true -> well_paired (H ++ T) = well_paired T) /\
          (forall m, well_paired (m :: H) = true ->
                     well_paired (m :: H ++ T) = well_paired T)) as [Hgoal _]; [done|].
  induction H as [|x H [IH1 IH2]].
  - split; [done|]. by intros [].
  - split; [apply IH2|].
    intros [] Hm; try done. destruct x; try done. cbn in *. by apply IH1.
Qed.

(** X1: when building the chain fails (credentials, model client or
    retriever), [get_response] raises that exception without invoking any
    pipeline and without touching the state. *)
Theorem get_response_propagates_setup_failure env question h vectordb s s1 e :
  get_context_retriever_chain env vectordb s = (s1, Raise e) ->
  get_response env question h vectordb s = (s, Raise e).
Proof.
  rewrite get_context_retriever_chain_run. intros [= _ Hchain].
  by rewrite get_response_run, Hchain.
Qed.

(** X2: when the pipeline's result has no [answer], or no [context],
    [get_response] raises a lookup failure for the missing key, [answer]
    before [context], after the one invocation. *)
Theorem get_response_missing_key env question h vectordb s H chain r :
  heap s !! h = Some H ->
  chain_outcome env vectordb = Ok chain ->
  chain_invoke env chain question H = Ok r ->
  answer r = None \/ context r = None ->
  get_response env question h vectordb s =
    (logged s [Invoke chain question H],
     Raise (KeyError match answer r with Some _ => "context" | None => "answer" end)).
Proof.
  intros HH Hchain Hinv Hmissing. rewrite get_response_run, Hchain.
  rewrite (lookup_total_correct _ _ _ HH), Hinv. unfold answer_and_context.
  destruct (answer r); [|done]. destruct Hmissing as [?|Hc]; [done|]. by rewrite Hc.
Qed.

(** X3: whatever its outcome, [get_response] changes no list object and does
    nothing outside but invoke the pipeline, at most once, with the question
    and the history it was given. *)
Theorem get_response_frame env question h vectordb s :
  let run := get_response env question h vectordb s in
  heap (fst run) = heap s /\
  (trace (fst run) = trace s \/
   exists chain, trace (fst run) = trace s ++ [Invoke chain question (heap s !!! h)]).
Proof.
  cbn zeta. rewrite get_response_run.
  destruct (chain_outcome env vectordb) as [chain|e]; cbn [fst]; [|by split; [|left]].
  split; [done|]. right. by exists chain.
Qed.

(** X4: [chat] catches nothing of [get_response]: when the response function
    raises for a submitted question, [chat] raises the same exception and
    stops in the state the response function left. *)
Theorem chat_propagates_get_response_failure env h vectordb s Q s1 e :
  st_chat_input env "Ask a question:" = Some Q ->
  Q <> "" ->
  get_response env Q h vectordb (logged s [ChatInput "Ask a question:"]) = (s1, Raise e) ->
  chat env h vectordb s = (s1, Raise e).
Proof.
  intros Hin HQ. apply String.eqb_neq in HQ.
  rewrite chat_run, get_response_run. cbn zeta. rewrite Hin, HQ.
  change (heap (logged s [ChatInput "Ask a question:"]) !!! h) with (heap s !!! h).
  destruct (chain_outcome env vectordb) as [chain|e1]; [|by intros [= <- <-]].
  destruct (chain_invoke env chain Q (heap s !!! h)) as [r|e1]; [|by intros [= <- <-]].
  destruct (answer_and_context r) as [[a ctx]|e1]; [|by intros [= <- <-]].
  by intros [=].
Qed.

(** X5: when the pipeline has answered but one of the documents it cites has
    no [source] or no [page], [chat] raises the lookup failure: nothing of
    the citations is written, not even those of the documents before it,
    the transcript is not replayed, and the caller's history is as it was. *)
Theorem chat_propagates_missing_metadata env h vectordb s H Q chain r a ctx :
  heap s !! h = Some H ->
  st_chat_input env "Ask a question:" = Some Q ->
  Q <> "" ->
  chain_outcome env vectordb = Ok chain ->
  chain_invoke env chain Q H = Ok r ->
  answer r = Some a ->
  context r = Some ctx ->
  Exists lacks_citation_key ctx ->
  exists s' key,
    chat env h vectordb s = (s', Raise (KeyError key)) /\
    (key = "source" \/ key = "page") /\
    trace s' = trace s ++ [ChatInput "Ask a question:"; Invoke chain Q H] /\
    heap s' !! h = Some H.
Proof.
  intros HH Hin HQ Hchain Hinv Ha Hc Hbad. apply String.eqb_neq in HQ.
  pose proof (lookup_total_correct _ _ _ HH) as Htot.
  destruct (group_loop_raises [] ctx Hbad) as (key & Hkey & Hwhich).
  rewrite chat_run. cbn zeta. rewrite Hin, HQ, Hchain, Htot, Hinv.
  unfold answer_and_context. rewrite Ha, Hc.
  unfold group_citations. rewrite Hkey.
  eexists _, key. split; [done|]. split; [done|]. cbn [trace heap logged].
  split; [by rewrite <- app_assoc|]. by apply heap_alloc_preserves.
Qed.


(** X7: one cycle of [chat] invokes the pipeline at most once, whatever its
    outcome. *)
Theorem chat_invokes_at_most_once env h vectordb s :
  length (List.filter is_Invoke (trace (fst (chat env h vectordb s)))) <=
    S (length (List.filter is_Invoke (trace s))).
Proof.
  rewrite chat_run. cbn zeta.
  assert (forall es : list (Event Retriever),
            length (List.filter is_Invoke es) <= 1 ->
            length (List.filter is_Invoke (trace s ++ es)) <=
              S (length (List.filter is_Invoke (trace s)))) as Hcount.
  { intros es Hes. rewrite List.filter_app, length_app. lia. }
  assert (forall H, length (List.filter is_Invoke
            (ChatInput "Ask a question:" :: map (render (Retriever := Retriever)) H)) <= 1)
    as Hidle.
  { intros H. cbn [List.filter is_Invoke]. rewrite render_not_Invoke. cbn. lia. }
  destruct (st_chat_input env "Ask a question:") as [Q|]; cbn [fst].
  2:{ rewrite logged_logged. by apply Hcount, Hidle. }
  destruct (String.eqb Q ""); cbn [fst].
  { rewrite logged_logged. by apply Hcount, Hidle. }
  destruct (chain_outcome env vectordb) as [chain|e1]; cbn [fst].
  2:{ apply Hcount. cbn. lia. }
  rewrite logged_logged.
  destruct (chain_invoke env chain Q (heap s !!! h)) as [r|e1]; cbn [fst].
  2:{ by apply Hcount. }
  destruct (answer_and_context r) as [[a ctx]|e1]; cbn [fst].
  2:{ by apply Hcount. }
  destruct (group_citations ctx) as [d|e1]; cbn [fst trace logged].
  2:{ by apply Hcount. }
  rewrite <- app_assoc. apply Hcount.
  rewrite !List.filter_app, citation_lines_not_Invoke, render_not_Invoke. cbn. lia.
Qed.

(** X11: a cycle of [chat] that completes keeps a conversation made of
    exchanges that way: when each human message of the history handed in is
    followed by its answer, the same holds of the history returned. *)
Theorem chat_keeps_exchanges_paired env h vectordb s s' h' :
  chat env h vectordb s = (s', Ok h') ->
  well_paired (heap s !!! h) = true ->
  well_paired (heap s' !!! h') = true.
Proof.
  rewrite chat_run. cbn zeta. intros Hrun Hpaired.
  destruct (st_chat_input env "Ask a question:") as [Q|].
  2:{ by injection Hrun as <- <-. }
  destruct (String.eqb Q ""). { by injection Hrun as <- <-. }
  destruct (chain_outcome env vectordb) as [chain|e]; [|done].
  destruct (chain_invoke env chain Q (heap s !!! h)) as [r|e]; [|done].
  destruct (answer_and_context r) as [[a ctx]|e]; [|done].
  destruct (group_citations ctx) as [d|e]; [|done].
  injection Hrun as <- <-. cbn [heap logged]. rewrite lookup_total_insert_eq.
  by rewrite well_paired_app.
Qed.

(** X12: the history one cycle returns is the memory of the next: after two
    cycles with questions, the second invocation of the pipeline was given
    the first exchange, the history returned holds both exchanges in order,
    and the list the first caller handed in is still as it was. *)
Theorem chat_threads_history (env1 env2 : Env VectorDB Retriever)
    h vectordb s H Q1 Q2 s1 h1 s2 h2 :
  heap s !! h = Some H ->
  st_chat_input env1 "Ask a question:" = Some Q1 -> Q1 <> "" ->
  st_chat_input env2 "Ask a question:" = Some Q2 -> Q2 <> "" ->
  chat env1 h vectordb s = (s1, Ok h1) ->
  chat env2 h1 vectordb s1 = (s2, Ok h2) ->
  exists chain a1 a2,
    heap s1 !! h1 = Some (H ++ [HumanMessage Q1; AIMessage a1]) /\
    Invoke chain Q2 (H ++ [HumanMessage Q1; AIMessage a1]) ∈ trace s2 /\
    heap s2 !! h2 =
      Some (H ++ [HumanMessage Q1; AIMessage a1; HumanMessage Q2; AIMessage a2]) /\
    heap s2 !! h = Some H.
Proof.
  intros HH Hin1 HQ1 Hin2 HQ2 Hrun1 Hrun2.
  pose proof (lookup_total_correct _ _ _ HH) as Htot.
  destruct (chat_query_inv _ _ _ _ _ _ _ Hin1 HQ1 Hrun1)
    as (chain1 & r1 & a1 & ctx1 & d1 & Hchain1 & Hinv1 & Ha1 & Hc1 & Hd1).
  rewrite (chat_query_run _ _ _ _ _ _ _ _ _ _ Hin1 HQ1 Hchain1 Hinv1 Ha1 Hc1 Hd1) in Hrun1.
  injection Hrun1 as <- <-.
  destruct (chat_query_inv _ _ _ _ _ _ _ Hin2 HQ2 Hrun2)
    as (chain2 & r2 & a2 & ctx2 & d2 & Hchain2 & Hinv2 & Ha2 & Hc2 & Hd2).
  rewrite (chat_query_run _ _ _ _ _ _ _ _ _ _ Hin2 HQ2 Hchain2 Hinv2 Ha2 Hc2 Hd2) in Hrun2.
  injection Hrun2 as <- <-. cbn [heap trace]. rewrite lookup_total_insert_eq, Htot.
  exists chain2, a1, a2. split; [by rewrite lookup_insert_eq|]. split.
  { apply elem_of_app. right. cbn [app].
    apply elem_of_cons. right. apply elem_of_cons. by left. }
  split; [by rewrite lookup_insert_eq, <- app_assoc|].
  apply heap_alloc_preserves. by apply heap_alloc_preserves.
Qed.

(** X13: when the pipeline answers without citing any document, the cycle
    completes and nothing is written to the side panel: the transcript
    follows the invocation at once. *)
Theorem chat_without_citations env h vectordb s H Q chain r a :
  heap s !! h = Some H ->
  st_chat_input env "Ask a question:" = Some Q ->
  Q <> "" ->
  chain_outcome env vectordb = Ok chain ->
  chain_invoke env chain Q H = Ok r ->
  answer r = Some a ->
  context r = Some [] ->
  exists s' h',
    chat env h vectordb s = (s', Ok h') /\
    trace s' = trace s ++ [ChatInput "Ask a question:"; Invoke chain Q H]
                 ++ map render (H ++ [HumanMessage Q; AIMessage a]).
Proof.
  intros HH Hin HQ Hchain Hinv Ha Hc.
  pose proof (lookup_total_correct _ _ _ HH) as Htot. rewrite <- Htot in Hinv.
  rewrite (chat_query_run _ _ _ _ _ _ _ _ _ [] Hin HQ Hchain Hinv Ha Hc eq_refl).
  eexists _, _. split; [done|]. cbn [trace flat_map app]. by rewrite Htot.
Qed.

End Cycles.

(** * Concrete runs *)

(** One cycle with the question "q?" after a greeting: the returned history
    is the greeting, the question and the answer. *)
Lemma chat_appends_exchange_witness :
  exists s' h',
    chat (echo_env (Some "q?") [doc "a" 1]) 1%positive tt (store_of greeting) = (s', Ok h') /\
    heap s' !! h' =
      Some [HumanMessage "hi"; AIMessage "hello"; HumanMessage "q?"; AIMessage "re: q?"].
Proof.
  refine (proj2 (chat_appends_exchange (echo_env (Some "q?") [doc "a" 1]) 1%positive tt
                   (store_of greeting) greeting "q?" _ _ _)
                echo_chain
                {| answer := Some "re: q?"; context := Some [doc "a" 1] |}
                "re: q?" [doc "a" 1] _ _ _ _ _);
    try reflexivity.
  - discriminate.
  - repeat constructor; by eexists.
Defined.

(** The documents of the specification's example, read back source by source. *)
Lemma group_citations_by_source_witness :
  let ctx := [doc "a" 1; doc "b" 2; doc "a" 3] in
  Forall has_citation_keys ctx /\
  group_citations ctx = Ok (grouped ctx) /\
  dd_lookup (grouped ctx) (VStr "a") = Some [VInt 1; VInt 3] /\
  dd_lookup (grouped ctx) (VStr "b") = Some [VInt 2] /\
  dd_lookup (grouped ctx) (VStr "c") = None.
Proof.
  intros ctx.
  assert (Forall has_citation_keys ctx) as Hkeys by (repeat constructor; by eexists).
  destruct (proj1 group_citations_by_source ctx Hkeys) as [Hrun Hread].
  split; [done|]. split; [done|].
  rewrite !Hread. by vm_compute.
Defined.

(** A whitespace-only question is a question: the pipeline is invoked with it
    and a new history comes back. *)
Lemma chat_whitespace_question_invokes :
  let run := chat (echo_env (Some " ") []) 1%positive tt (store_of greeting) in
  whitespace_only " " = true /\
  existsb is_Invoke (trace (fst run)) = true /\
  snd run = Ok 2%positive /\
  heap (fst run) !! 2%positive =
    Some [HumanMessage "hi"; AIMessage "hello"; HumanMessage " "; AIMessage "re:  "] /\
  ~ skips_pipeline (echo_env (Some " ") []) 1%positive tt (store_of greeting).
Proof.
  repeat split; try reflexivity.
  unfold skips_pipeline. intros Hskip. vm_compute in Hskip.
  destruct Hskip as [[=] _].
Qed.

(** No submission, and an empty submission. *)
Lemma chat_without_question_skips_pipeline_witness :
  skips_pipeline (echo_env None []) 1%positive tt (store_of greeting) /\
  skips_pipeline (echo_env (Some "") []) 1%positive tt (store_of greeting).
Proof.
  split.
  - apply (chat_without_question_skips_pipeline (echo_env None [])). by left.
  - apply (chat_without_question_skips_pipeline (echo_env (Some "") [])). by right.
Defined.

Lemma prompt_has_placeholders_witness :
  exists system,
    sd_prompt (rc_combine echo_chain) =
      [ RoleTemplate "system" system;
        MessagesPlaceholder "chat_history";
        RoleTemplate "human" "{input}" ] /\
    contains "{context}" system = true.
Proof.
  apply (prompt_has_placeholders (echo_env None []) tt (store_of []) (store_of [])).
  reflexivity.
Defined.

(** An authentication failure of the provider comes out of [get_response]. *)
Lemma get_response_propagates_witness :
  get_response (failing_env None (ExternalError "auth")) "q?" 1%positive tt
               (store_of greeting) =
    (logged (store_of greeting) [Invoke echo_chain "q?" greeting],
     Raise (ExternalError "auth")).
Proof.
  apply (get_response_propagates (failing_env None (ExternalError "auth")) "q?"
           1%positive tt (store_of greeting) greeting echo_chain (ExternalError "auth"));
    reflexivity.
Defined.

(** A document without a page, and a list of documents that have both keys. *)
Lemma group_citations_key_errors_witness :
  (exists key,
     group_citations [doc "a" 1; doc_without_page "b"] = Raise (KeyError key) /\
     (key = "source" \/ key = "page")) /\
  (exists d, group_citations [doc "a" 1; doc "b" 2] = Ok d).
Proof.
  split.
  - apply (proj1 (group_citations_key_errors [doc "a" 1; doc_without_page "b"])).
    apply Exists_cons_tl, Exists_cons_hd. by right.
  - apply (proj2 (group_citations_key_errors [doc "a" 1; doc "b" 2])).
    repeat constructor; by eexists.
Defined.

(** A history of twelve messages reaches the pipeline whole. *)
Lemma get_response_passes_whole_history_witness :
  let H := List.concat (List.repeat greeting 6) in
  length H = 12 /\
  get_response (echo_env None []) "q?" 1%positive tt (store_of H) =
    (logged (store_of H) [Invoke echo_chain "q?" H], Ok ("re: q?", [])).
Proof.
  intros H. split; [reflexivity|].
  apply (get_response_passes_whole_history (echo_env None []) "q?" 1%positive tt
           (store_of H) H echo_chain); reflexivity.
Defined.

(** A caller's history with a system message in it: replayed under "Human". *)
Lemma chat_replays_transcript_witness :
  let s := store_of [SystemMessage "be brief"; HumanMessage "hi"; AIMessage "hello"] in
  exists before,
    trace (fst (chat (echo_env None []) 1%positive tt s)) =
      trace s ++ before ++
        [ Write (ChatMessageBox "Human") "be brief";
          Write (ChatMessageBox "Human") "hi";
          Write (ChatMessageBox "AI") "hello" ] /\
    forallb (fun e => negb (is_transcript_write e)) before = true.
Proof.
  intros s.
  apply (proj1 (chat_replays_transcript (echo_env None []) 1%positive tt s)
           (fst (chat (echo_env None []) 1%positive tt s)) 1%positive).
  reflexivity.
Defined.

(** After a cycle with a question, reference 1 still holds the greeting and
    the returned reference is a new one. *)
Lemma chat_leaves_lists_alone_witness :
  let env := echo_env (Some "q?") [doc "a" 1] in
  let run := chat env 1%positive tt (store_of greeting) in
  heap (fst run) !! 1%positive = Some greeting /\
  snd run = Ok 2%positive /\
  heap (store_of greeting) !! 2%positive = None.
Proof.
  intros env run.
  destruct (chat_leaves_lists_alone env 1%positive tt (store_of greeting)
              (fst run) (snd run)) as [Hkept Hnew]; [reflexivity|].
  split; [by apply Hkept|]. split; [reflexivity|].
  by apply (Hnew "q?" 2%positive).
Defined.

(** Source "b" is met first and its page 2 twice. *)
Lemma side_panel_in_first_occurrence_order_witness :
  let ctx := [doc "b" 2; doc "a" 1; doc "b" 2] in
  let env := echo_env (Some "q?") ctx in
  side_panel (Retriever := unit) ctx =
    [ Write Sidebar "Source: b"; Write Sidebar "Pages: 2, 2";
      Write Sidebar "Source: a"; Write Sidebar "Pages: 1" ] /\
  exists s' h',
    chat env 1%positive tt (store_of greeting) = (s', Ok h') /\
    trace s' = [ChatInput "Ask a question:"; Invoke echo_chain "q?" greeting]
                 ++ side_panel ctx
                 ++ map render (greeting ++ [HumanMessage "q?"; AIMessage "re: q?"]).
Proof.
  intros ctx env. split; [reflexivity|].
  refine (proj1 (side_panel_in_first_occurrence_order env 1%positive tt
                   (store_of greeting) greeting "q?" echo_chain
                   {| answer := Some "re: q?"; context := Some ctx |}
                   "re: q?" ctx _ _ _ _ _ _ _ _));
    try reflexivity.
  - discriminate.
  - repeat constructor; by eexists.
Defined.

(** A model client that cannot be built for want of a key. *)
Lemma get_response_propagates_setup_failure_witness :
  let env := scripted_env None (Raise (ExternalError "api key"))
                          (Ok {| answer := Some "never"; context := Some [] |}) in
  get_response env "q?" 1%positive tt (store_of greeting) =
    (store_of greeting, Raise (ExternalError "api key")).
Proof.
  intros env.
  apply (get_response_propagates_setup_failure env "q?" 1%positive tt
           (store_of greeting) (store_of greeting) (ExternalError "api key")).
  reflexivity.
Defined.

(** A result with neither key: the failure names [answer]. *)
Lemma get_response_missing_key_witness :
  let env := scripted_env None (Ok llm) (Ok {| answer := None; context := None |}) in
  get_response env "q?" 1%positive tt (store_of greeting) =
    (logged (store_of greeting) [Invoke echo_chain "q?" greeting],
     Raise (KeyError "answer")).
Proof.
  intros env.
  apply (get_response_missing_key env "q?" 1%positive tt (store_of greeting) greeting
           echo_chain {| answer := None; context := None |}); try reflexivity.
  by left.
Defined.

(** A provider that times out, seen from [chat]. *)
Lemma chat_propagates_get_response_failure_witness :
  let env := failing_env (Some "q?") (ExternalError "timeout") in
  chat env 1%positive tt (store_of greeting) =
    (logged (store_of greeting)
            [ChatInput "Ask a question:"; Invoke echo_chain "q?" greeting],
     Raise (ExternalError "timeout")).
Proof.
  intros env.
  apply (chat_propagates_get_response_failure env 1%positive tt (store_of greeting) "q?");
    [reflexivity | discriminate | reflexivity].
Defined.

(** The second cited document has no page: the first one is not listed. *)
Lemma chat_propagates_missing_metadata_witness :
  let ctx := [doc "a" 1; doc_without_page "b"] in
  let env := echo_env (Some "q?") ctx in
  exists s' key,
    chat env 1%positive tt (store_of greeting) = (s', Raise (KeyError key)) /\
    (key = "source" \/ key = "page") /\
    trace s' = [ChatInput "Ask a question:"; Invoke echo_chain "q?" greeting] /\
    heap s' !! 1%positive = Some greeting.
Proof.
  intros ctx env.
  refine (chat_propagates_missing_metadata env 1%positive tt (store_of greeting)
            greeting "q?" echo_chain
            {| answer := Some "re: q?"; context := Some ctx |} "re: q?" ctx
            _ _ _ _ _ _ _ _); try reflexivity.
  - discriminate.
  - apply Exists_cons_tl, Exists_cons_hd. by right.
Defined.


(** The third document lacks both keys, the fourth would fail on its own. *)
Lemma group_citations_first_missing_key_witness :
  group_citations [doc "a" 1; doc "b" 2;
                   {| page_content := ""; metadata := ∅ |}; doc_without_page "c"] =
    Raise (KeyError "source").
Proof.
  assert (Forall has_citation_keys [doc "a" 1; doc "b" 2]) as Hgood
    by (repeat constructor; by eexists).
  assert (lacks_citation_key {| page_content := ""; metadata := ∅ |}) as Hbad
    by (by left).
  exact (group_citations_first_missing_key [doc "a" 1; doc "b" 2]
           {| page_content := ""; metadata := ∅ |} [doc_without_page "c"] Hgood Hbad).
Defined.


Lemma group_citations_one_page_per_document_witness :
  length (all_pages [(VStr "a", [VInt 1; VInt 1]); (VStr "b", [VInt 2])]) = 3.
Proof.
  apply (group_citations_one_page_per_document [doc "a" 1; doc "b" 2; doc "a" 1]).
  reflexivity.
Defined.

Lemma chat_keeps_exchanges_paired_witness :
  let env := echo_env (Some "q?") [doc "a" 1] in
  well_paired (heap (fst (chat env 1%positive tt (store_of greeting))) !!! 2%positive) = true.
Proof.
  intros env.
  apply (chat_keeps_exchanges_paired env 1%positive tt (store_of greeting)
           (fst (chat env 1%positive tt (store_of greeting))) 2%positive);
    reflexivity.
Defined.

(** Two questions in a row. *)
Lemma chat_threads_history_witness :
  let env1 := echo_env (Some "one") [] in
  let env2 := echo_env (Some "two") [] in
  let run1 := chat env1 1%positive tt (store_of greeting) in
  let run2 := chat env2 2%positive tt (fst run1) in
  exists chain a1 a2,
    heap (fst run1) !! 2%positive =
      Some (greeting ++ [HumanMessage "one"; AIMessage a1]) /\
    Invoke chain "two" (greeting ++ [HumanMessage "one"; AIMessage a1])
      ∈ trace (fst run2) /\
    heap (fst run2) !! 3%positive =
      Some (greeting ++ [HumanMessage "one"; AIMessage a1;
                         HumanMessage "two"; AIMessage a2]) /\
    heap (fst run2) !! 1%positive = Some greeting.
Proof.
  intros env1 env2 run1 run2.
  refine (chat_threads_history env1 env2 1%positive tt (store_of greeting) greeting
            "one" "two" (fst run1) 2%positive (fst run2) 3%positive _ _ _ _ _ _ _);
    try reflexivity; discriminate.
Defined.

Lemma chat_without_citations_witness :
  let env := echo_env (Some "q?") [] in
  exists s' h',
    chat env 1%positive tt (store_of greeting) = (s', Ok h') /\
    trace s' = [ChatInput "Ask a question:"; Invoke echo_chain "q?" greeting]
                 ++ map render (greeting ++ [HumanMessage "q?"; AIMessage "re: q?"]).
Proof.
  intros env.
  refine (chat_without_citations env 1%positive tt (store_of greeting) greeting "q?"
            echo_chain {| answer := Some "re: q?"; context := Some [] |} "re: q?"
            _ _ _ _ _ _ _); try reflexivity.
  discriminate.
Defined.
